(** * epysurv: the point-source outbreak simulation wrapper

    A shallow embedding of [epysurv/simulation/point_source.py].  The module is
    a bridge: it imports the R package [surveillance] when it is loaded, and
    [simulate_outbreaks] forwards its arguments to the package's
    [sim_pointSource], turns the answer into a data frame, stamps it with a
    weekly date index, renames two columns and derives a third.

    The R runtime is outside the repository.  It is an interface here
    ([RRuntime]); what the Python code does is stated for every runtime, and
    what the function's docstring promises of the engine is an explicit
    contract (section [EngineContract]) on that interface.

    The seasonal mean of the simulation is computed inside the engine, in
    floating point; the module neither computes nor returns it, so nothing
    here speaks of it.  Nor of seeds: the random draws are the engine's, from
    the random stream of the runtime, and the module takes no seed. *)

From Stdlib Require Import ZArith List String Lia Bool.
From Stdlib Require Import Floats.PrimFloat Floats.SpecFloat Floats.FloatOps.
Import ListNotations.

Set Warnings "-inexact-float".
Local Open Scope string_scope.
Local Open Scope Z_scope.

(* ===================================================================== *)
(** * Values that cross the bridge *)
(* ===================================================================== *)

(** A Python number: the defaults of [simulate_outbreaks] are a mix of [int]
    ([length=100], [amplitude=1], ...) and [float] ([p=0.99], [r=0.01]). *)
Inductive PyNumber :=
| PyInt (z : Z)
| PyFloat (f : float).

(** The exceptions the module can surface.  [RRuntimeError] carries the
    message of an R condition raised inside the external call. *)
Inductive PyExn :=
| TypeError (msg : string)
| KeyError (key : string)
| ValueError (msg : string)
| RRuntimeError (msg : string).

(** The R objects built for the [state] argument: [robjects.NULL] or an
    integer vector.  The values of an R integer vector are 32 bits wide. *)
Inductive RObject :=
| RNULL
| RIntVector (v : list Z).

(** The Python ints an R integer vector holds as they are: the 32-bit range
    without its least value, which R reads as the missing value. *)
Definition fits_int32 (z : Z) : bool :=
  (-2147483647 <=? z) && (z <=? 2147483647).

Definition to_int32 (z : Z) : Z :=
  (z + 2147483648) mod 4294967296 - 2147483648.

(** [robjects.IntVector(state)], evaluated on line 73 before the call.  A
    value that fits is held as it is.  The source does not settle what the
    bridge makes of a Python int that does not fit; the vector built here
    keeps its low 32 bits, and every statement about the values that reach
    the engine is made for chains that fit. *)
Definition IntVector (state : list Z) : RObject :=
  RIntVector (map to_int32 state).

(** The keyword arguments of [surveillance.sim_pointSource], as the call on
    lines 64-75 names them. *)
Record RKwargs := {
  kw_p : PyNumber;
  kw_r : PyNumber;
  kw_length : PyNumber;
  kw_A : PyNumber;
  kw_alpha : PyNumber;
  kw_beta : PyNumber;
  kw_phi : PyNumber;
  kw_frequency : PyNumber;
  kw_state : RObject;
  kw_K : PyNumber
}.

(** An R named list of whole-number vectors; [rx2] reads an entry by name. *)
Definition RList := list (string * list Z).

Fixpoint rx2 (r_list : RList) (name : string) : option (list Z) :=
  match r_list with
  | [] => None
  | (k, v) :: rest => if String.eqb k name then Some v else rx2 rest name
  end.

(* ===================================================================== *)
(** * The external runtime *)
(* ===================================================================== *)

(** The embedded R process: its state ([World], of which [rng] is the state of
    the random stream), package loading, and the one function of
    [surveillance] the module calls.  An R error is returned as its message. *)
Record RRuntime := {
  World : Type;
  Rng : Type;
  rng : World -> Rng;
  importr : string -> World -> (string + unit) * World;
  sim_pointSource : RKwargs -> World -> (string + RList) * World
}.

(** What the process has done to the runtime so far. *)
Inductive Event :=
| EvImportr (package : string)
| EvCall (package fn : string) (kwargs : RKwargs).

Record Session (R : RRuntime) := {
  world : World R;
  trace : list Event
}.
Arguments world {R} _.
Arguments trace {R} _.
Arguments Build_Session {R} _ _.

(** Python code running against the runtime: it may raise, and it threads the
    session. *)
Definition Py (R : RRuntime) (A : Type) : Type :=
  Session R -> (PyExn + A) * Session R.

Definition ret {R A} (a : A) : Py R A := fun s => (inr a, s).

Definition bind {R A B} (m : Py R A) (k : A -> Py R B) : Py R B :=
  fun s =>
    match m s with
    | (inl e, s') => (inl e, s')
    | (inr a, s') => k a s'
    end.

Definition lift {R A} (x : PyExn + A) : Py R A := fun s => (x, s).

Declare Scope py_scope.
Delimit Scope py_scope with py.
Notation "x <- m ;; k" := (bind m (fun x => k))
  (at level 61, m at next level, right associativity) : py_scope.

(** [rpackages.importr(name)]. *)
Definition rpackages_importr {R} (name : string) : Py R unit :=
  fun s =>
    let '(res, w) := importr R name (world s) in
    let s' := Build_Session w (trace s ++ [EvImportr name]) in
    match res with
    | inl msg => (inl (RRuntimeError msg), s')
    | inr tt => (inr tt, s')
    end.

(** The call [surveillance.sim_pointSource] with keyword arguments. *)
Definition surveillance_sim_pointSource {R} (kwargs : RKwargs) : Py R RList :=
  fun s =>
    let '(res, w) := sim_pointSource R kwargs (world s) in
    let s' := Build_Session w (trace s ++ [EvCall "surveillance" "sim_pointSource" kwargs]) in
    match res with
    | inl msg => (inl (RRuntimeError msg), s')
    | inr r_list => (inr r_list, s')
    end.

(* ===================================================================== *)
(** * Data frames *)
(* ===================================================================== *)

(** Timestamps are day numbers. *)
Inductive Index :=
| RangeIndex (n : nat)
| DatetimeIndex (days : list Z).

Record DataFrame := {
  df_index : Index;
  df_columns : list (string * list Z)
}.

Definition len (df : DataFrame) : nat :=
  match df_index df with
  | RangeIndex n => n
  | DatetimeIndex days => List.length days
  end.

Definition column_names (df : DataFrame) : list string :=
  map fst (df_columns df).

Fixpoint lookup_column (cols : list (string * list Z)) (name : string)
  : option (list Z) :=
  match cols with
  | [] => None
  | (k, v) :: rest => if String.eqb k name then Some v else lookup_column rest name
  end.

(** [df[name]]. *)
Definition getitem (df : DataFrame) (name : string) : PyExn + list Z :=
  match lookup_column (df_columns df) name with
  | Some v => inr v
  | None => inl (KeyError name)
  end.

Fixpoint assign_column (cols : list (string * list Z)) (name : string)
  (v : list Z) : list (string * list Z) :=
  match cols with
  | [] => [(name, v)]
  | (k, old) :: rest =>
      if String.eqb k name then (k, v) :: rest
      else (k, old) :: assign_column rest name v
  end.

(** [df[name] = v]: an existing column is replaced in place, a new one is
    appended. *)
Definition setitem (df : DataFrame) (name : string) (v : list Z) : DataFrame :=
  {| df_index := df_index df; df_columns := assign_column (df_columns df) name v |}.

Fixpoint renamed (mapping : list (string * string)) (name : string) : string :=
  match mapping with
  | [] => name
  | (old, new) :: rest => if String.eqb old name then new else renamed rest name
  end.

(** [df.rename(columns=mapping)]. *)
Definition rename (df : DataFrame) (mapping : list (string * string)) : DataFrame :=
  {| df_index := df_index df;
     df_columns := map (fun c => (renamed mapping (fst c), snd c)) (df_columns df) |}.

(** [a * b] on two columns of one frame: the product row by row. *)
Fixpoint series_mul (a b : list Z) : list Z :=
  match a, b with
  | x :: a', y :: b' => x * y :: series_mul a' b'
  | _, _ => []
  end.

(** The value of column [name] in row [t]. *)
Definition cell (df : DataFrame) (name : string) (t : nat) : option Z :=
  match lookup_column (df_columns df) name with
  | Some v => nth_error v t
  | None => None
  end.

(* ===================================================================== *)
(** * The helpers of [epysurv.simulation.utils] *)
(* ===================================================================== *)

Fixpoint rx2_each (r_list : RList) (names : list string)
  : PyExn + list (string * list Z) :=
  match names with
  | [] => inr []
  | name :: rest =>
      match rx2 r_list name with
      | None => inl (KeyError name)
      | Some v =>
          match rx2_each r_list rest with
          | inl e => inl e
          | inr cols => inr ((name, v) :: cols)
          end
      end
  end.

Definition same_length (n : nat) (cols : list (string * list Z)) : bool :=
  forallb (fun c => Nat.eqb (List.length (snd c)) n) cols.

(** Modelled from the spec: [r_list_to_frame] of [epysurv/simulation/utils.py],
    whose code is not at hand.  The spec says it "converts a foreign
    list-like result into a dataframe"; the call site passes the names of the
    entries to keep.  The frame has one column per requested name, in that
    order, read from the entry of that name, over the default row index.  A
    frame is tabular, so entries of different lengths (or a missing entry) are
    refused. *)
Definition r_list_to_frame (r_list : RList) (names : list string)
  : PyExn + DataFrame :=
  match rx2_each r_list names with
  | inl e => inl e
  | inr [] => inr {| df_index := RangeIndex 0; df_columns := [] |}
  | inr ((name, v) :: cols) =>
      let n := List.length v in
      if same_length n cols
      then inr {| df_index := RangeIndex n; df_columns := (name, v) :: cols |}
      else inl (ValueError "All arrays must be of the same length")
  end.

(** [periods] weekly timestamps from [start]. *)
Definition date_range (start : Z) (periods : nat) : list Z :=
  map (fun i => start + 7 * Z.of_nat i) (seq 0 periods).

(** Modelled from the spec: [add_date_time_index_to_frame] of
    [epysurv/simulation/utils.py], whose code is not at hand: "a
    date-indexing utility that stamps the row sequence with calendar weeks",
    the index being "one row per simulated week, strictly increasing, 7-day
    spacing, start date ... defaulted to an implementation-defined epoch".
    The wrapper passes no start date, so the epoch is the helper's default. *)
Definition add_date_time_index_to_frame (epoch : Z) (df : DataFrame) : DataFrame :=
  {| df_index := DatetimeIndex (date_range epoch (len df));
     df_columns := df_columns df |}.

(* ===================================================================== *)
(** * [point_source.py] *)
(* ===================================================================== *)

(** The parameters of [simulate_outbreaks] once a call is bound. *)
Record Params := {
  arg_state_weight : PyNumber;
  arg_p : PyNumber;
  arg_r : PyNumber;
  arg_length : PyNumber;
  arg_amplitude : PyNumber;
  arg_alpha : PyNumber;
  arg_beta : PyNumber;
  arg_phi : PyNumber;
  arg_frequency : PyNumber;
  arg_state : option (list Z)
}.

(** A call as written: each parameter is given or left out. *)
Record CallArgs := {
  given_state_weight : option PyNumber;
  given_p : option PyNumber;
  given_r : option PyNumber;
  given_length : option PyNumber;
  given_amplitude : option PyNumber;
  given_alpha : option PyNumber;
  given_beta : option PyNumber;
  given_phi : option PyNumber;
  given_frequency : option PyNumber;
  given_state : option (option (list Z))
}.

Definition or_default {A} (given : option A) (default : A) : A :=
  match given with
  | Some a => a
  | None => default
  end.

(** The signature on lines 13-24: [state_weight] is the one parameter with no
    default. *)
Definition bind_arguments (c : CallArgs) : PyExn + Params :=
  match given_state_weight c with
  | None =>
      inl (TypeError
        "simulate_outbreaks() missing 1 required positional argument: 'state_weight'")
  | Some state_weight =>
      inr {| arg_state_weight := state_weight;
             arg_p := or_default (given_p c) (PyFloat 0.99);
             arg_r := or_default (given_r c) (PyFloat 0.01);
             arg_length := or_default (given_length c) (PyInt 100);
             arg_amplitude := or_default (given_amplitude c) (PyInt 1);
             arg_alpha := or_default (given_alpha c) (PyInt 1);
             arg_beta := or_default (given_beta c) (PyInt 0);
             arg_phi := or_default (given_phi c) (PyInt 0);
             arg_frequency := or_default (given_frequency c) (PyInt 1);
             arg_state := or_default (given_state c) None |}
  end.

(** The keyword arguments of the call on lines 64-75. *)
Definition forwarded (a : Params) : RKwargs :=
  {| kw_p := arg_p a;
     kw_r := arg_r a;
     kw_length := arg_length a;
     kw_A := arg_amplitude a;
     kw_alpha := arg_alpha a;
     kw_beta := arg_beta a;
     kw_phi := arg_phi a;
     kw_frequency := arg_frequency a;
     kw_state := match arg_state a with
                 | None => RNULL
                 | Some state => IntVector state
                 end;
     kw_K := arg_state_weight a |}.

Section PointSource.

Context (R : RRuntime).

(** The default start date of the date index. *)
Context (epoch : Z).

Local Open Scope py_scope.

(** Line 10, run when the module is loaded:
    [surveillance = rpackages.importr("surveillance")]. *)
Definition surveillance : Py R unit := rpackages_importr "surveillance".

(** Lines 64-82. *)
Definition simulate_outbreaks (a : Params) : Py R DataFrame :=
  simulated <- surveillance_sim_pointSource (forwarded a) ;;
  simulated <- lift (r_list_to_frame simulated ["observed"; "state"]) ;;
  let simulated := add_date_time_index_to_frame epoch simulated in
  let simulated :=
    rename simulated [("observed", "raw_cases"); ("state", "is_outbreak")] in
  raw_cases <- lift (getitem simulated "raw_cases") ;;
  is_outbreak <- lift (getitem simulated "is_outbreak") ;;
  ret (setitem simulated "n_outbreak_cases" (series_mul raw_cases is_outbreak)).

(** A call of [simulate_outbreaks]: the arguments are bound first. *)
Definition call_simulate_outbreaks (c : CallArgs) : Py R DataFrame :=
  a <- lift (bind_arguments c) ;;
  simulate_outbreaks a.

End PointSource.

(* ===================================================================== *)
(** * What is promised of the engine *)
(* ===================================================================== *)

(** The exact value of a number: not a number, an infinity, or the dyadic
    rational [m * 2 ^ e]. *)
Inductive Exact :=
| ENaN
| ENegInf
| EPosInf
| EFinite (m e : Z).

Definition exact_of_float (f : float) : Exact :=
  match Prim2SF f with
  | S754_zero _ => EFinite 0 0
  | S754_infinity true => ENegInf
  | S754_infinity false => EPosInf
  | S754_nan => ENaN
  | S754_finite sign m e => EFinite (if sign then Zneg m else Zpos m) e
  end.

Definition exact_of (x : PyNumber) : Exact :=
  match x with
  | PyInt z => EFinite z 0
  | PyFloat f => exact_of_float f
  end.

Definition exact_leb (a b : Exact) : bool :=
  match a, b with
  | ENaN, _ => false
  | _, ENaN => false
  | ENegInf, _ => true
  | _, EPosInf => true
  | _, ENegInf => false
  | EPosInf, _ => false
  | EFinite m1 e1, EFinite m2 e2 =>
      let e := Z.min e1 e2 in
      m1 * 2 ^ (e1 - e) <=? m2 * 2 ^ (e2 - e)
  end.

(** [a <= b] on numbers, ints and floats mixed, by their exact values. *)
Definition num_leb (a b : PyNumber) : bool :=
  exact_leb (exact_of a) (exact_of b).

Definition in_unit_interval (x : PyNumber) : bool :=
  num_leb (PyInt 0) x && num_leb x (PyInt 1).

Definition is_binary (z : Z) : bool := (z =? 0) || (z =? 1).

(** The parameter constraints of the specification: [alpha >= amplitude],
    [p] and [r] in the unit interval, a positive integer [length] when no
    state chain is given, and a state chain of zeros and ones. *)
Definition spec_valid (kw : RKwargs) : bool :=
  num_leb (kw_A kw) (kw_alpha kw)
  && in_unit_interval (kw_p kw)
  && in_unit_interval (kw_r kw)
  && match kw_state kw with
     | RNULL =>
         match kw_length kw with
         | PyInt n => 0 <? n
         | PyFloat _ => false
         end
     | RIntVector v => forallb is_binary v
     end.

Definition with_length (kw : RKwargs) (l : PyNumber) : RKwargs :=
  {| kw_p := kw_p kw; kw_r := kw_r kw; kw_length := l; kw_A := kw_A kw;
     kw_alpha := kw_alpha kw; kw_beta := kw_beta kw; kw_phi := kw_phi kw;
     kw_frequency := kw_frequency kw; kw_state := kw_state kw; kw_K := kw_K kw |}.

Definition set_length (a : Params) (l : PyNumber) : Params :=
  {| arg_state_weight := arg_state_weight a; arg_p := arg_p a; arg_r := arg_r a;
     arg_length := l; arg_amplitude := arg_amplitude a; arg_alpha := arg_alpha a;
     arg_beta := arg_beta a; arg_phi := arg_phi a;
     arg_frequency := arg_frequency a; arg_state := arg_state a |}.

Section EngineContract.

Context (R : RRuntime).

(** The result of the engine is a time series: it has an [observed] and a
    [state] entry, one value per week each. *)
Definition engine_entries : Prop :=
  forall kw w r_list w',
    sim_pointSource R kw w = (inr r_list, w') ->
    exists observed state,
      rx2 r_list "observed" = Some observed
      /\ rx2 r_list "state" = Some state
      /\ List.length observed = List.length state.

(** Docstring, [state]: "use a state chain to define the status at this
    timepoint": a chain that is given is the chain of the result. *)
Definition engine_keeps_state : Prop :=
  forall kw w r_list w' state,
    kw_state kw = RIntVector state ->
    sim_pointSource R kw w = (inr r_list, w') ->
    rx2 r_list "state" = Some state.

(** Docstring, [length]: "number of weeks to model". *)
Definition engine_honours_length : Prop :=
  forall kw w r_list w' n state,
    kw_state kw = RNULL ->
    kw_length kw = PyInt n ->
    sim_pointSource R kw w = (inr r_list, w') ->
    rx2 r_list "state" = Some state ->
    List.length state = Z.to_nat n.

(** Docstring, [length]: "length is ignored if state is given". *)
Definition engine_ignores_length : Prop :=
  forall kw w l state,
    kw_state kw = RIntVector state ->
    sim_pointSource R (with_length kw l) w = sim_pointSource R kw w.

(** The engine accepts every parameter set the specification calls valid. *)
Definition engine_accepts_valid : Prop :=
  forall kw w,
    spec_valid kw = true ->
    exists r_list w', sim_pointSource R kw w = (inr r_list, w').

End EngineContract.

(* ===================================================================== *)
(** * A stand-in engine *)
(* ===================================================================== *)

(** A small deterministic engine to run the wrapper on concrete inputs: a
    linear congruential stream, a state chain and case counts read off it, and
    the parameter checks of the specification.  Its runtime state is the
    stream together with the number of calls served. *)
Module StubR.

Definition lcg (x : Z) : Z := (1103515245 * x + 12345) mod 2147483648.

Fixpoint draws (n : nat) (x : Z) : list Z :=
  match n with
  | O => []
  | S n' => lcg x :: draws n' (lcg x)
  end.

Fixpoint advance (n : nat) (x : Z) : Z :=
  match n with
  | O => x
  | S n' => advance n' (lcg x)
  end.

Definition counts (n : nat) (x : Z) : list Z :=
  map (fun d => (d / 65536) mod 16) (draws n x).

Definition chain (n : nat) (x : Z) : list Z :=
  map (fun d => (d / 65536) mod 2) (draws n x).

Definition series (observed state : list Z) : RList :=
  [("observed", observed); ("state", state); ("freq", [52])].

Definition simulate (kw : RKwargs) (x : Z) : (string + RList) * Z :=
  if spec_valid kw then
    match kw_state kw with
    | RIntVector state =>
        let n := List.length state in
        (inr (series (counts n x) state), advance n x)
    | RNULL =>
        match kw_length kw with
        | PyInt l =>
            let n := Z.to_nat l in
            (inr (series (counts n (advance n x)) (chain n x)),
             advance n (advance n x))
        | PyFloat _ => (inl "length must be a whole number", x)
        end
    end
  else (inl "invalid parameter", x).

Definition runtime : RRuntime :=
  {| World := Z * nat;
     Rng := Z;
     rng := fst;
     importr := fun _ w => (inr tt, (fst w, S (snd w)));
     sim_pointSource := fun kw w =>
       let '(res, x) := simulate kw (fst w) in (res, (x, S (snd w))) |}.

Definition fresh (seed : Z) : Session runtime :=
  Build_Session (R := runtime) (seed, O) [].

End StubR.

(** The parameters of [simulate_outbreaks(state_weight)] with every default. *)
Definition defaults (state_weight : PyNumber) : Params :=
  {| arg_state_weight := state_weight;
     arg_p := PyFloat 0.99; arg_r := PyFloat 0.01; arg_length := PyInt 100;
     arg_amplitude := PyInt 1; arg_alpha := PyInt 1; arg_beta := PyInt 0;
     arg_phi := PyInt 0; arg_frequency := PyInt 1; arg_state := None |}.

Definition with_state (a : Params) (state : list Z) : Params :=
  {| arg_state_weight := arg_state_weight a; arg_p := arg_p a; arg_r := arg_r a;
     arg_length := arg_length a; arg_amplitude := arg_amplitude a;
     arg_alpha := arg_alpha a; arg_beta := arg_beta a; arg_phi := arg_phi a;
     arg_frequency := arg_frequency a; arg_state := Some state |}.

Definition with_alpha (a : Params) (alpha : PyNumber) : Params :=
  {| arg_state_weight := arg_state_weight a; arg_p := arg_p a; arg_r := arg_r a;
     arg_length := arg_length a; arg_amplitude := arg_amplitude a;
     arg_alpha := alpha; arg_beta := arg_beta a; arg_phi := arg_phi a;
     arg_frequency := arg_frequency a; arg_state := arg_state a |}.

(** Concrete inputs: a call with a state chain, and one whose [alpha] is below
    the amplitude. *)
Definition chain_args : Params := with_state (defaults (PyInt 0)) [0; 0; 1; 1; 0].

Definition low_alpha_args : Params := with_alpha (defaults (PyInt 0)) (PyInt 0).

Definition sim_call (a : Params) : Event :=
  EvCall "surveillance" "sim_pointSource" (forwarded a).

Definition chain_frame : DataFrame :=
  {| df_index := DatetimeIndex [18262; 18269; 18276; 18283; 18290];
     df_columns := [("raw_cases", [12; 14; 4; 2; 3]);
                    ("is_outbreak", [0; 0; 1; 1; 0]);
                    ("n_outbreak_cases", [0; 0; 4; 2; 0])] |}.

(** The frame [simulate_outbreaks] builds from the two series of the engine. *)
Definition framed (epoch : Z) (observed state : list Z) : DataFrame :=
  {| df_index := DatetimeIndex (date_range epoch (List.length observed));
     df_columns := [("raw_cases", observed);
                    ("is_outbreak", state);
                    ("n_outbreak_cases", series_mul observed state)] |}.

(** Whether the state chain of a parameter set, if it has one, fits an R
    integer vector. *)
Definition chain_fits (a : Params) : bool :=
  match arg_state a with
  | None => true
  | Some state => forallb fits_int32 state
  end.

(** The number of weeks a parameter set asks for. *)
Definition weeks (a : Params) : nat :=
  match arg_state a with
  | Some state => List.length state
  | None =>
      match arg_length a with
      | PyInt n => Z.to_nat n
      | PyFloat _ => O
      end
  end.

(** A default run of six weeks. *)
Definition six_weeks_args : Params := set_length (defaults (PyInt 0)) (PyInt 6).

(** A call that gives [state_weight] and nothing else, and one that gives
    everything but [state_weight]. *)
Definition only_state_weight (k : PyNumber) : CallArgs :=
  {| given_state_weight := Some k; given_p := None; given_r := None;
     given_length := None; given_amplitude := None; given_alpha := None;
     given_beta := None; given_phi := None; given_frequency := None;
     given_state := None |}.

Definition without_state_weight (c : CallArgs) : CallArgs :=
  {| given_state_weight := None; given_p := given_p c; given_r := given_r c;
     given_length := given_length c; given_amplitude := given_amplitude c;
     given_alpha := given_alpha c; given_beta := given_beta c;
     given_phi := given_phi c; given_frequency := given_frequency c;
     given_state := given_state c |}.

Definition missing_state_weight : PyExn :=
  TypeError
    "simulate_outbreaks() missing 1 required positional argument: 'state_weight'".

(** Whether column [name] exists and all its values pass [p]. *)
Definition column_all (p : Z -> bool) (df : DataFrame) (name : string) : bool :=
  match lookup_column (df_columns df) name with
  | Some v => forallb p v
  | None => false
  end.

Definition total (col : list Z) : Z := fold_right Z.add 0 col.

(** [df[name].sum()]. *)
Definition column_total (df : DataFrame) (name : string) : option Z :=
  option_map total (lookup_column (df_columns df) name).

(** Two runs one after the other, as in
    [first = simulate_outbreaks(a); second = simulate_outbreaks(b)]. *)
Definition two_runs (R : RRuntime) (epoch : Z) (a b : Params)
  : Py R (DataFrame * DataFrame) :=
  bind (simulate_outbreaks R epoch a) (fun first =>
  bind (simulate_outbreaks R epoch b) (fun second =>
  ret (first, second))).

(** The keyword arguments a call leads to: what is given, or the default of
    the signature. *)
Definition kwargs_of_call (c : CallArgs) (state_weight : PyNumber) : RKwargs :=
  {| kw_p := or_default (given_p c) (PyFloat 0.99);
     kw_r := or_default (given_r c) (PyFloat 0.01);
     kw_length := or_default (given_length c) (PyInt 100);
     kw_A := or_default (given_amplitude c) (PyInt 1);
     kw_alpha := or_default (given_alpha c) (PyInt 1);
     kw_beta := or_default (given_beta c) (PyInt 0);
     kw_phi := or_default (given_phi c) (PyInt 0);
     kw_frequency := or_default (given_frequency c) (PyInt 1);
     kw_state := match or_default (given_state c) None with
                 | None => RNULL
                 | Some state => IntVector state
                 end;
     kw_K := state_weight |}.

(** More concrete inputs: a chain that is an outbreak throughout, one that
    never is, and a call that sets [length] and a chain and leaves the rest. *)
Definition outbreak_args : Params := with_state (defaults (PyInt 0)) [1; 1; 1].

Definition quiet_args : Params := with_state (defaults (PyInt 0)) [0; 0; 0].

Definition outbreak_frame : DataFrame :=
  {| df_index := DatetimeIndex [18262; 18269; 18276];
     df_columns := [("raw_cases", [12; 14; 4]);
                    ("is_outbreak", [1; 1; 1]);
                    ("n_outbreak_cases", [12; 14; 4])] |}.

Definition quiet_frame : DataFrame :=
  {| df_index := DatetimeIndex [18262; 18269; 18276];
     df_columns := [("raw_cases", [12; 14; 4]);
                    ("is_outbreak", [0; 0; 0]);
                    ("n_outbreak_cases", [0; 0; 0])] |}.

Definition chain_call : CallArgs :=
  {| given_state_weight := Some (PyInt 2); given_p := None; given_r := None;
     given_length := Some (PyInt 52); given_amplitude := None;
     given_alpha := None; given_beta := None; given_phi := None;
     given_frequency := None; given_state := Some (Some [0; 1]) |}.

(* ===================================================================== *)
(** * Lists and frames *)
(* ===================================================================== *)

Lemma to_int32_fits (z : Z) : fits_int32 z = true -> to_int32 z = z.
Proof.
  unfold fits_int32, to_int32. intros H.
  apply andb_true_iff in H. destruct H as [Hlo Hhi].
  apply Z.leb_le in Hlo. apply Z.leb_le in Hhi.
  rewrite Z.mod_small by lia. lia.
Qed.

(** A chain that fits reaches the engine value for value. *)
Lemma IntVector_fits (state : list Z) :
  forallb fits_int32 state = true -> IntVector state = RIntVector state.
Proof.
  intros H. unfold IntVector. f_equal.
  induction state as [|z state IH]; [reflexivity|].
  cbn [forallb map] in *. apply andb_true_iff in H. destruct H as [Hz H].
  now rewrite (to_int32_fits z Hz), (IH H).
Qed.

Lemma forwarded_state (a : Params) (state : list Z) :
  arg_state a = Some state ->
  forallb fits_int32 state = true ->
  kw_state (forwarded a) = RIntVector state.
Proof.
  intros H Hfits. cbn [forwarded kw_state]. rewrite H.
  now apply IntVector_fits.
Qed.

Lemma forwarded_state_vector (a : Params) (state : list Z) :
  arg_state a = Some state ->
  kw_state (forwarded a) = RIntVector (map to_int32 state).
Proof. intros H. cbn [forwarded kw_state]. now rewrite H. Qed.

Lemma forwarded_chain_fits (a : Params) :
  chain_fits a = true ->
  kw_state (forwarded a)
  = match arg_state a with
    | None => RNULL
    | Some state => RIntVector state
    end.
Proof.
  unfold chain_fits. cbn [forwarded kw_state].
  destruct (arg_state a) as [state|]; [apply IntVector_fits | reflexivity].
Qed.

Lemma series_mul_nth (a b : list Z) (t : nat) (x y : Z) :
  nth_error a t = Some x ->
  nth_error b t = Some y ->
  nth_error (series_mul a b) t = Some (x * y).
Proof.
  revert b t.
  induction a as [|x0 a IH]; intros [|y0 b] [|t]; simpl; try discriminate.
  - intros [= ->] [= ->]. reflexivity.
  - apply IH.
Qed.

Lemma series_mul_length (a b : list Z) :
  List.length a = List.length b ->
  List.length (series_mul a b) = List.length a.
Proof.
  revert b.
  induction a as [|x a IH]; intros [|y b]; simpl; try discriminate; auto.
Qed.

Lemma date_range_length (start : Z) (n : nat) :
  List.length (date_range start n) = n.
Proof.
  unfold date_range. now rewrite length_map, length_seq.
Qed.

Lemma date_range_nth (start : Z) (n t : nat) :
  (t < n)%nat ->
  nth_error (date_range start n) t = Some (start + 7 * Z.of_nat t).
Proof.
  intros Ht. unfold date_range.
  rewrite nth_error_map.
  rewrite (nth_error_nth' (seq 0 n) O) by now rewrite length_seq.
  rewrite seq_nth by assumption. reflexivity.
Qed.

(** Consecutive stamps of a weekly range are seven days apart. *)
Lemma date_range_weekly (start : Z) (n t : nat) (d d' : Z) :
  nth_error (date_range start n) t = Some d ->
  nth_error (date_range start n) (S t) = Some d' ->
  d' = d + 7.
Proof.
  intros Hd Hd'.
  assert (HSt : (S t < n)%nat).
  { rewrite <- (date_range_length start n). apply nth_error_Some. congruence. }
  rewrite date_range_nth in Hd by lia.
  rewrite date_range_nth in Hd' by lia.
  assert (Ed : d = start + 7 * Z.of_nat t) by congruence.
  assert (Ed' : d' = start + 7 * Z.of_nat (S t)) by congruence.
  lia.
Qed.

(** What [r_list_to_frame] returns when asked for the two series. *)
Lemma r_list_to_frame_observed_state (r_list : RList) (df : DataFrame) :
  r_list_to_frame r_list ["observed"; "state"] = inr df ->
  exists observed state,
    rx2 r_list "observed" = Some observed
    /\ rx2 r_list "state" = Some state
    /\ List.length state = List.length observed
    /\ df = {| df_index := RangeIndex (List.length observed);
               df_columns := [("observed", observed); ("state", state)] |}.
Proof.
  unfold r_list_to_frame. simpl.
  destruct (rx2 r_list "observed") as [observed|]; [|discriminate].
  destruct (rx2 r_list "state") as [state|]; [|discriminate].
  simpl. rewrite andb_true_r.
  destruct (Nat.eqb_spec (List.length state) (List.length observed)) as [E|];
    [|discriminate].
  intros [= <-]. now exists observed, state.
Qed.

Lemma r_list_to_frame_series (r_list : RList) (observed state : list Z) :
  rx2 r_list "observed" = Some observed ->
  rx2 r_list "state" = Some state ->
  List.length observed = List.length state ->
  r_list_to_frame r_list ["observed"; "state"]
  = inr {| df_index := RangeIndex (List.length observed);
           df_columns := [("observed", observed); ("state", state)] |}.
Proof.
  intros Ho Hs Hlen. unfold r_list_to_frame. simpl.
  rewrite Ho, Hs. simpl. rewrite Hlen, Nat.eqb_refl. reflexivity.
Qed.

(* ===================================================================== *)
(** * One run of [simulate_outbreaks] *)
(* ===================================================================== *)

Section Runs.

Context (R : RRuntime) (epoch : Z).

(** The session after a run, whatever the outcome: the runtime is where the
    engine left it, and the call is on record. *)
Lemma simulate_outbreaks_session (a : Params) (s : Session R) :
  snd (simulate_outbreaks R epoch a s)
  = Build_Session (snd (sim_pointSource R (forwarded a) (world s)))
                  (trace s ++ [sim_call a]).
Proof.
  unfold simulate_outbreaks, bind, surveillance_sim_pointSource, lift, ret, sim_call.
  destruct (sim_pointSource R (forwarded a) (world s)) as [[msg|r_list] w]; simpl.
  - reflexivity.
  - destruct (r_list_to_frame r_list _) as [e|df]; [reflexivity|].
    destruct (getitem _ "raw_cases"); [reflexivity|].
    destruct (getitem _ "is_outbreak"); reflexivity.
Qed.

(** A run that returns a frame: the engine answered with two series of one
    length, and the frame is built from them. *)
Lemma simulate_outbreaks_returns (a : Params) (s s' : Session R) (df : DataFrame) :
  simulate_outbreaks R epoch a s = (inr df, s') ->
  exists r_list observed state,
    sim_pointSource R (forwarded a) (world s) = (inr r_list, world s')
    /\ rx2 r_list "observed" = Some observed
    /\ rx2 r_list "state" = Some state
    /\ List.length state = List.length observed
    /\ df = framed epoch observed state.
Proof.
  intros Hrun.
  pose proof (simulate_outbreaks_session a s) as Hs.
  rewrite Hrun in Hs. simpl in Hs.
  revert Hrun.
  unfold simulate_outbreaks, bind, surveillance_sim_pointSource, lift, ret.
  destruct (sim_pointSource R (forwarded a) (world s)) as [[msg|r_list] w] eqn:Esim;
    simpl; [discriminate|].
  destruct (r_list_to_frame r_list _) as [e|df0] eqn:Eframe; [discriminate|].
  apply r_list_to_frame_observed_state in Eframe.
  destruct Eframe as (observed & state & Ho & Hst & Hlen & ->).
  simpl. intros [= <- _].
  exists r_list, observed, state.
  rewrite Hs. simpl in *. auto.
Qed.

(** Conversely, such an answer of the engine always gives a frame. *)
Lemma simulate_outbreaks_frames (a : Params) (s : Session R)
    (r_list : RList) (w' : World R) (observed state : list Z) :
  sim_pointSource R (forwarded a) (world s) = (inr r_list, w') ->
  rx2 r_list "observed" = Some observed ->
  rx2 r_list "state" = Some state ->
  List.length observed = List.length state ->
  simulate_outbreaks R epoch a s
  = (inr (framed epoch observed state),
     Build_Session w' (trace s ++ [sim_call a])).
Proof.
  intros Hsim Ho Hst Hlen.
  unfold simulate_outbreaks, bind, surveillance_sim_pointSource, lift, ret.
  rewrite Hsim. simpl.
  rewrite (r_list_to_frame_series r_list observed state Ho Hst Hlen).
  reflexivity.
Qed.

End Runs.

(** The frame built from two series of one length has a row per value. *)
Lemma framed_len (epoch : Z) (observed state : list Z) :
  len (framed epoch observed state) = List.length observed.
Proof. unfold len. simpl. apply date_range_length. Qed.

Lemma framed_columns (epoch : Z) (observed state : list Z)
    (name : string) (col : list Z) :
  List.length state = List.length observed ->
  lookup_column (df_columns (framed epoch observed state)) name = Some col ->
  List.length col = List.length observed.
Proof.
  intros Hlen. unfold framed. cbn [df_columns lookup_column].
  destruct (String.eqb "raw_cases" name); [now intros [= <-]|].
  destruct (String.eqb "is_outbreak" name); [now intros [= <-]|].
  destruct (String.eqb "n_outbreak_cases" name); [|discriminate].
  intros [= <-]. apply series_mul_length. now symmetry.
Qed.

(** The comparison is exact where ints and floats meet, however large the
    int. *)
Lemma num_leb_is_exact :
  num_leb (PyInt (2 ^ 63)) (PyFloat 0.5) = false
  /\ num_leb (PyFloat 0.5) (PyInt (2 ^ 63)) = true
  /\ num_leb (PyInt (2 ^ 53 + 1)) (PyFloat 9007199254740992) = false
  /\ num_leb (PyFloat 0.99) (PyInt 1) = true.
Proof. repeat split. Qed.

(* ===================================================================== *)
(** * The stand-in engine keeps the contract *)
(* ===================================================================== *)

Module StubFacts.

Import StubR.

Lemma draws_length (n : nat) (x : Z) : List.length (draws n x) = n.
Proof.
  revert x. induction n as [|n IH]; intros x; simpl; [reflexivity|].
  now rewrite IH.
Qed.

Lemma counts_length (n : nat) (x : Z) : List.length (counts n x) = n.
Proof. unfold counts. now rewrite length_map, draws_length. Qed.

Lemma chain_length (n : nat) (x : Z) : List.length (chain n x) = n.
Proof. unfold chain. now rewrite length_map, draws_length. Qed.

(** The successful answers of [simulate], case by case. *)
Lemma simulate_answer (kw : RKwargs) (x x' : Z) (r_list : RList) :
  simulate kw x = (inr r_list, x') ->
  (exists state,
      kw_state kw = RIntVector state
      /\ r_list = series (counts (List.length state) x) state)
  \/ (exists l,
      kw_state kw = RNULL /\ kw_length kw = PyInt l
      /\ r_list = series (counts (Z.to_nat l) (advance (Z.to_nat l) x))
                         (chain (Z.to_nat l) x)).
Proof.
  unfold simulate.
  destruct (spec_valid kw); [|discriminate].
  destruct (kw_state kw) as [|state].
  - destruct (kw_length kw) as [l|f]; [|discriminate].
    intros [= <- _]. right. now exists l.
  - intros [= <- _]. left. now exists state.
Qed.

Lemma run_answer (kw : RKwargs) (w w' : World runtime) (r_list : RList) :
  sim_pointSource runtime kw w = (inr r_list, w') ->
  exists x', simulate kw (fst w) = (inr r_list, x').
Proof.
  simpl. destruct (simulate kw (fst w)) as [res x'].
  intros [= -> _]. now exists x'.
Qed.

Lemma entries : engine_entries runtime.
Proof.
  intros kw w r_list w' Hrun.
  destruct (run_answer kw w w' r_list Hrun) as [x' Hsim].
  destruct (simulate_answer kw _ _ _ Hsim)
    as [(state & _ & ->) | (l & _ & _ & ->)]; simpl.
  - exists (counts (List.length state) (fst w)), state.
    now rewrite counts_length.
  - exists (counts (Z.to_nat l) (advance (Z.to_nat l) (fst w))),
           (chain (Z.to_nat l) (fst w)).
    now rewrite counts_length, chain_length.
Qed.

Lemma keeps_state : engine_keeps_state runtime.
Proof.
  intros kw w r_list w' state Hstate Hrun.
  destruct (run_answer kw w w' r_list Hrun) as [x' Hsim].
  destruct (simulate_answer kw _ _ _ Hsim)
    as [(state' & Hstate' & ->) | (l & Hnull & _ & _)]; simpl.
  - congruence.
  - congruence.
Qed.

Lemma honours_length : engine_honours_length runtime.
Proof.
  intros kw w r_list w' n state Hnull Hlen Hrun Hrx.
  destruct (run_answer kw w w' r_list Hrun) as [x' Hsim].
  destruct (simulate_answer kw _ _ _ Hsim)
    as [(state' & Hstate' & _) | (l & _ & Hl & ->)].
  - congruence.
  - simpl in Hrx. injection Hrx as <-.
    rewrite chain_length. congruence.
Qed.

Lemma ignores_length : engine_ignores_length runtime.
Proof.
  intros kw w l state Hstate. simpl.
  unfold simulate, spec_valid. simpl. rewrite Hstate. reflexivity.
Qed.

Lemma accepts_valid : engine_accepts_valid runtime.
Proof.
  intros kw w Hvalid. simpl. unfold simulate. rewrite Hvalid.
  destruct (kw_state kw) as [|state] eqn:Estate.
  - destruct (kw_length kw) as [l|f] eqn:El.
    + eexists _, _. reflexivity.
    + unfold spec_valid in Hvalid. rewrite Estate, El in Hvalid.
      now rewrite andb_false_r in Hvalid.
  - eexists _, _. reflexivity.
Qed.

End StubFacts.

(* ===================================================================== *)
(** * The derived column *)
(* ===================================================================== *)

(** C1: in every row [t] of a frame returned by [simulate_outbreaks], the
    value of [n_outbreak_cases] is the product of [raw_cases] and
    [is_outbreak] of that row; so it is [raw_cases] where [is_outbreak] is 1
    and 0 where [is_outbreak] is 0. *)
Theorem n_outbreak_cases_is_product
    (R : RRuntime) (epoch : Z) (a : Params) (s s' : Session R)
    (df : DataFrame) (t : nat) :
  simulate_outbreaks R epoch a s = (inr df, s') ->
  (t < len df)%nat ->
  exists raw_cases is_outbreak,
    cell df "raw_cases" t = Some raw_cases
    /\ cell df "is_outbreak" t = Some is_outbreak
    /\ cell df "n_outbreak_cases" t = Some (raw_cases * is_outbreak)
    /\ (is_outbreak = 1 -> cell df "n_outbreak_cases" t = Some raw_cases)
    /\ (is_outbreak = 0 -> cell df "n_outbreak_cases" t = Some 0).
Proof.
  intros Hrun Ht.
  destruct (simulate_outbreaks_returns R epoch a s s' df Hrun)
    as (r_list & observed & state & _ & _ & _ & Hlen & ->).
  unfold len in Ht. simpl in Ht. rewrite date_range_length in Ht.
  destruct (nth_error observed t) as [x|] eqn:Ex;
    [|apply nth_error_None in Ex; lia].
  destruct (nth_error state t) as [y|] eqn:Ey;
    [|apply nth_error_None in Ey; lia].
  pose proof (series_mul_nth observed state t x y Ex Ey) as Hmul.
  exists x, y. unfold cell. simpl.
  repeat split; try assumption.
  - intros ->. now rewrite Z.mul_1_r in Hmul.
  - intros ->. now rewrite Z.mul_0_r in Hmul.
Qed.

Lemma n_outbreak_cases_is_product_witness :
  exists raw_cases is_outbreak,
    cell chain_frame "raw_cases" 2 = Some raw_cases
    /\ cell chain_frame "is_outbreak" 2 = Some is_outbreak
    /\ cell chain_frame "n_outbreak_cases" 2 = Some (raw_cases * is_outbreak)
    /\ (is_outbreak = 1 -> cell chain_frame "n_outbreak_cases" 2 = Some raw_cases)
    /\ (is_outbreak = 0 -> cell chain_frame "n_outbreak_cases" 2 = Some 0).
Proof.
  apply (n_outbreak_cases_is_product StubR.runtime 18262 chain_args
           (StubR.fresh 7)
           (Build_Session (R := StubR.runtime) (2131988640, 1%nat)
              [sim_call chain_args])
           chain_frame 2%nat).
  - reflexivity.
  - unfold len, chain_frame. simpl. lia.
Defined.

(* ===================================================================== *)
(** * Errors *)
(* ===================================================================== *)

(** C2, as the code has it: [simulate_outbreaks] checks nothing itself.  For
    every parameter set whose state chain, if it has one, fits an R integer
    vector, it makes the one external call with the parameters forwarded as
    they are (the chain value for value), and the session afterwards records
    it.  It fails exactly when the engine fails, with the engine's error, or
    when the answer of the engine cannot be framed. *)
Theorem simulate_outbreaks_forwards_unchecked
    (R : RRuntime) (epoch : Z) (a : Params) (s : Session R) :
  chain_fits a = true ->
  kw_state (forwarded a)
  = match arg_state a with
    | None => RNULL
    | Some state => RIntVector state
    end
  /\ snd (simulate_outbreaks R epoch a s)
  = Build_Session (snd (sim_pointSource R (forwarded a) (world s)))
                  (trace s ++ [sim_call a])
  /\ (forall msg,
        fst (sim_pointSource R (forwarded a) (world s)) = inl msg ->
        fst (simulate_outbreaks R epoch a s) = inl (RRuntimeError msg))
  /\ (forall r_list e,
        fst (sim_pointSource R (forwarded a) (world s)) = inr r_list ->
        r_list_to_frame r_list ["observed"; "state"] = inl e ->
        fst (simulate_outbreaks R epoch a s) = inl e)
  /\ (forall e,
        fst (simulate_outbreaks R epoch a s) = inl e ->
        (exists msg,
            fst (sim_pointSource R (forwarded a) (world s)) = inl msg
            /\ e = RRuntimeError msg)
        \/ (exists r_list,
            fst (sim_pointSource R (forwarded a) (world s)) = inr r_list
            /\ r_list_to_frame r_list ["observed"; "state"] = inl e)).
Proof.
  intros Hfits.
  split; [now apply forwarded_chain_fits|].
  split; [apply simulate_outbreaks_session|].
  unfold simulate_outbreaks, bind, surveillance_sim_pointSource, lift, ret.
  destruct (sim_pointSource R (forwarded a) (world s)) as [[msg0|r_list0] w];
    simpl.
  - repeat split.
    + now intros msg [= ->].
    + discriminate.
    + intros e [= <-]. left. now exists msg0.
  - destruct (r_list_to_frame r_list0 _) as [e0|df0] eqn:Eframe.
    + repeat split.
      * discriminate.
      * intros r_list e [= <-]. now rewrite Eframe.
      * intros e [= <-]. right. now exists r_list0.
    + apply r_list_to_frame_observed_state in Eframe.
      destruct Eframe as (observed & state & Ho & Hst & Hlen & ->).
      simpl. repeat split.
      * discriminate.
      * intros r_list e [= <-].
        rewrite (r_list_to_frame_series r_list0 observed state Ho Hst)
          by (symmetry; exact Hlen).
        discriminate.
      * discriminate.
Qed.

Lemma simulate_outbreaks_forwards_unchecked_witness :
  kw_state (forwarded chain_args) = RIntVector [0; 0; 1; 1; 0]
  /\ snd (simulate_outbreaks StubR.runtime 18262 chain_args (StubR.fresh 7))
     = Build_Session (R := StubR.runtime)
         (snd (sim_pointSource StubR.runtime (forwarded chain_args)
                 (world (StubR.fresh 7))))
         (trace (StubR.fresh 7) ++ [sim_call chain_args])
  /\ (forall msg,
        fst (sim_pointSource StubR.runtime (forwarded chain_args)
               (world (StubR.fresh 7))) = inl msg ->
        fst (simulate_outbreaks StubR.runtime 18262 chain_args (StubR.fresh 7))
        = inl (RRuntimeError msg))
  /\ (forall r_list e,
        fst (sim_pointSource StubR.runtime (forwarded chain_args)
               (world (StubR.fresh 7))) = inr r_list ->
        r_list_to_frame r_list ["observed"; "state"] = inl e ->
        fst (simulate_outbreaks StubR.runtime 18262 chain_args (StubR.fresh 7))
        = inl e)
  /\ (forall e,
        fst (simulate_outbreaks StubR.runtime 18262 chain_args (StubR.fresh 7))
        = inl e ->
        (exists msg,
            fst (sim_pointSource StubR.runtime (forwarded chain_args)
                   (world (StubR.fresh 7))) = inl msg
            /\ e = RRuntimeError msg)
        \/ (exists r_list,
            fst (sim_pointSource StubR.runtime (forwarded chain_args)
                   (world (StubR.fresh 7))) = inr r_list
            /\ r_list_to_frame r_list ["observed"; "state"] = inl e)).
Proof.
  apply (simulate_outbreaks_forwards_unchecked StubR.runtime 18262 chain_args
           (StubR.fresh 7)).
  reflexivity.
Defined.

(** C2, as stated, fails: with [alpha = 0] below [amplitude = 1] the
    parameter set is invalid, yet the external call is made (it is in the
    trace, and the runtime has served it), and the error that comes back is
    the engine's. *)
Lemma low_alpha_reaches_the_engine :
  spec_valid (forwarded low_alpha_args) = false
  /\ simulate_outbreaks StubR.runtime 18262 low_alpha_args (StubR.fresh 7)
     = (inl (RRuntimeError "invalid parameter"),
        Build_Session (R := StubR.runtime) (7, 1%nat) [sim_call low_alpha_args]).
Proof. split; reflexivity. Qed.

(* ===================================================================== *)
(** * The shape of the result *)
(* ===================================================================== *)

(** C3, as the code has it: a returned frame has the three columns
    [raw_cases], [is_outbreak] and [n_outbreak_cases], in that order, and no
    [mean] column; its index is a weekly range, one stamp per row and
    consecutive stamps seven days apart; every column has one value per
    row. *)
Theorem result_has_no_mean_column
    (R : RRuntime) (epoch : Z) (a : Params) (s s' : Session R) (df : DataFrame) :
  simulate_outbreaks R epoch a s = (inr df, s') ->
  column_names df = ["raw_cases"; "is_outbreak"; "n_outbreak_cases"]
  /\ lookup_column (df_columns df) "mean" = None
  /\ (exists days,
        df_index df = DatetimeIndex days
        /\ List.length days = len df
        /\ forall t d d',
             nth_error days t = Some d ->
             nth_error days (S t) = Some d' ->
             d' = d + 7)
  /\ (forall name col,
        lookup_column (df_columns df) name = Some col ->
        List.length col = len df).
Proof.
  intros Hrun.
  destruct (simulate_outbreaks_returns R epoch a s s' df Hrun)
    as (r_list & observed & state & _ & _ & _ & Hlen & ->).
  repeat split.
  - exists (date_range epoch (List.length observed)).
    repeat split. intros t d d'. apply date_range_weekly.
  - intros name col Hcol. rewrite framed_len.
    exact (framed_columns epoch observed state name col Hlen Hcol).
Qed.

Lemma result_has_no_mean_column_witness :
  column_names chain_frame = ["raw_cases"; "is_outbreak"; "n_outbreak_cases"]
  /\ lookup_column (df_columns chain_frame) "mean" = None
  /\ (exists days,
        df_index chain_frame = DatetimeIndex days
        /\ List.length days = len chain_frame
        /\ forall t d d',
             nth_error days t = Some d ->
             nth_error days (S t) = Some d' ->
             d' = d + 7)
  /\ (forall name col,
        lookup_column (df_columns chain_frame) name = Some col ->
        List.length col = len chain_frame).
Proof.
  apply (result_has_no_mean_column StubR.runtime 18262 chain_args
           (StubR.fresh 7)
           (Build_Session (R := StubR.runtime) (2131988640, 1%nat)
              [sim_call chain_args])
           chain_frame).
  reflexivity.
Defined.

(* ===================================================================== *)
(** * State chains and lengths *)
(* ===================================================================== *)

Lemma forwarded_set_length (a : Params) (l : PyNumber) :
  forwarded (set_length a l) = with_length (forwarded a) l.
Proof. reflexivity. Qed.

Lemma forwarded_no_state (a : Params) :
  arg_state a = None -> kw_state (forwarded a) = RNULL.
Proof. intros H. simpl. now rewrite H. Qed.

(** A valid parameter set without a state chain has a positive integer
    [length]. *)
Lemma valid_length (a : Params) :
  spec_valid (forwarded a) = true ->
  arg_state a = None ->
  exists n, arg_length a = PyInt n /\ 0 < n.
Proof.
  intros Hvalid Hnone. unfold spec_valid in Hvalid.
  rewrite (forwarded_no_state a Hnone) in Hvalid.
  apply andb_true_iff in Hvalid. destruct Hvalid as [_ Hlen].
  change (kw_length (forwarded a)) with (arg_length a) in Hlen.
  destruct (arg_length a) as [n|f]; [|discriminate].
  exists n. split; [reflexivity|]. now apply Z.ltb_lt.
Qed.

(** C4: when a state chain is supplied, the [is_outbreak] column of the
    result is that chain, value for value and in order, the result has one row
    per value of the chain, and the [length] parameter does not matter: any
    other [length] gives the same frame.  The chain is one an R integer
    vector can hold, and the engine is taken to use the chain it is given and
    to ignore [length] then, as the docstring says. *)
Theorem state_is_passed_through
    (R : RRuntime) (epoch : Z) (a : Params) (state : list Z)
    (s s' : Session R) (df : DataFrame) :
  engine_keeps_state R ->
  engine_ignores_length R ->
  arg_state a = Some state ->
  forallb fits_int32 state = true ->
  simulate_outbreaks R epoch a s = (inr df, s') ->
  lookup_column (df_columns df) "is_outbreak" = Some state
  /\ len df = List.length state
  /\ forall l, fst (simulate_outbreaks R epoch (set_length a l) s) = inr df.
Proof.
  intros Hkeeps Hignores Hstate Hfits Hrun.
  destruct (simulate_outbreaks_returns R epoch a s s' df Hrun)
    as (r_list & observed & state' & Hsim & Ho & Hst & Hlen & ->).
  pose proof (forwarded_state a state Hstate Hfits) as Hsent.
  pose proof (Hkeeps _ _ _ _ state Hsent Hsim) as Hst'.
  assert (state' = state) as -> by congruence.
  repeat split.
  - unfold len. simpl. rewrite date_range_length. now symmetry.
  - intros l.
    assert (Hsim' : sim_pointSource R (forwarded (set_length a l)) (world s)
                    = (inr r_list, world s')).
    { rewrite forwarded_set_length.
      rewrite (Hignores _ _ l state Hsent).
      exact Hsim. }
    rewrite (simulate_outbreaks_frames R epoch _ s r_list (world s')
               observed state Hsim' Ho Hst) by now symmetry.
    reflexivity.
Qed.

Lemma state_is_passed_through_witness :
  lookup_column (df_columns chain_frame) "is_outbreak" = Some [0; 0; 1; 1; 0]
  /\ len chain_frame = List.length [0; 0; 1; 1; 0]
  /\ forall l,
       fst (simulate_outbreaks StubR.runtime 18262 (set_length chain_args l)
              (StubR.fresh 7))
       = inr chain_frame.
Proof.
  apply (state_is_passed_through StubR.runtime 18262 chain_args [0; 0; 1; 1; 0]
           (StubR.fresh 7)
           (Build_Session (R := StubR.runtime) (2131988640, 1%nat)
              [sim_call chain_args])
           chain_frame
           StubFacts.keeps_state StubFacts.ignores_length).
  - reflexivity.
  - reflexivity.
  - reflexivity.
Defined.

(** C5: for every valid parameter set [simulate_outbreaks] returns a frame,
    and the frame has [length] rows, or as many rows as the state chain when
    one is supplied; every column has that many values.  The engine is taken
    to accept valid parameters and to return two series of the documented
    length. *)
Theorem rows_match_length
    (R : RRuntime) (epoch : Z) (a : Params) (s : Session R) :
  engine_entries R ->
  engine_keeps_state R ->
  engine_honours_length R ->
  engine_accepts_valid R ->
  spec_valid (forwarded a) = true ->
  exists df s',
    simulate_outbreaks R epoch a s = (inr df, s')
    /\ len df = weeks a
    /\ forall name col,
         lookup_column (df_columns df) name = Some col ->
         List.length col = weeks a.
Proof.
  intros Hentries Hkeeps Hhonours Haccepts Hvalid.
  destruct (Haccepts _ (world s) Hvalid) as (r_list & w' & Hsim).
  destruct (Hentries _ _ _ _ Hsim) as (observed & state & Ho & Hst & Hlen).
  pose proof (simulate_outbreaks_frames R epoch a s r_list w' observed state
                Hsim Ho Hst Hlen) as Hrun.
  assert (Hweeks : List.length observed = weeks a).
  { rewrite Hlen. unfold weeks.
    destruct (arg_state a) as [given|] eqn:Estate.
    - pose proof (Hkeeps _ _ _ _ _ (forwarded_state_vector a given Estate) Hsim)
        as Hkept.
      assert (state = map to_int32 given) as -> by congruence.
      apply length_map.
    - destruct (valid_length a Hvalid Estate) as (n & En & _).
      rewrite En.
      apply (Hhonours _ _ _ _ n state (forwarded_no_state a Estate) En Hsim Hst). }
  eexists _, _. split; [exact Hrun|].
  rewrite <- Hweeks. split.
  - apply framed_len.
  - intros name col Hcol.
    apply (framed_columns epoch observed state name col); [now symmetry|exact Hcol].
Qed.

Lemma rows_match_length_witness :
  exists df s',
    simulate_outbreaks StubR.runtime 18262 six_weeks_args (StubR.fresh 7)
    = (inr df, s')
    /\ len df = 6%nat
    /\ forall name col,
         lookup_column (df_columns df) name = Some col ->
         List.length col = 6%nat.
Proof.
  apply (rows_match_length StubR.runtime 18262 six_weeks_args (StubR.fresh 7)
           StubFacts.entries StubFacts.keeps_state StubFacts.honours_length
           StubFacts.accepts_valid).
  reflexivity.
Defined.

(* ===================================================================== *)
(** * Effects *)
(* ===================================================================== *)

(** The outcome of a run is settled by the answer of the engine. *)
Lemma simulate_outbreaks_outcome
    (R : RRuntime) (epoch : Z) (a : Params) (s1 s2 : Session R) :
  fst (sim_pointSource R (forwarded a) (world s1))
  = fst (sim_pointSource R (forwarded a) (world s2)) ->
  fst (simulate_outbreaks R epoch a s1) = fst (simulate_outbreaks R epoch a s2).
Proof.
  unfold simulate_outbreaks, bind, surveillance_sim_pointSource, lift, ret.
  destruct (sim_pointSource R (forwarded a) (world s1)) as [res1 w1].
  destruct (sim_pointSource R (forwarded a) (world s2)) as [res2 w2].
  simpl. intros ->.
  destruct res2 as [msg|r_list]; [reflexivity|].
  destruct (r_list_to_frame r_list _) as [e|df]; [reflexivity|].
  destruct (getitem _ "raw_cases"); [reflexivity|].
  destruct (getitem _ "is_outbreak"); reflexivity.
Qed.

(** C7, as the code has it: loading the module imports the package
    [surveillance] into the runtime, and a run makes the one call to
    [sim_pointSource]; the session after either is the runtime as the call
    left it, with the call on record.  The outcome of a run is settled by the
    parameters and the state of the runtime at the call. *)
Theorem effects_are_the_external_calls
    (R : RRuntime) (epoch : Z) (a : Params) (s : Session R) :
  snd (surveillance R s)
  = Build_Session (snd (importr R "surveillance" (world s)))
                  (trace s ++ [EvImportr "surveillance"])
  /\ snd (simulate_outbreaks R epoch a s)
     = Build_Session (snd (sim_pointSource R (forwarded a) (world s)))
                     (trace s ++ [sim_call a])
  /\ forall s2 : Session R,
       world s2 = world s ->
       fst (simulate_outbreaks R epoch a s2) = fst (simulate_outbreaks R epoch a s).
Proof.
  repeat split.
  - unfold surveillance, rpackages_importr.
    destruct (importr R "surveillance" (world s)) as [[msg|[]] w]; reflexivity.
  - apply simulate_outbreaks_session.
  - intros s2 Hworld. apply simulate_outbreaks_outcome. now rewrite Hworld.
Qed.

(** C7, as stated, fails: loading the module changes the runtime (the import
    is served and on record), and a run leaves the random stream of the
    runtime in another state than it found it. *)
Lemma loading_and_running_change_the_runtime :
  StubR.fresh 7 = Build_Session (R := StubR.runtime) (7, 0%nat) []
  /\ snd (surveillance StubR.runtime (StubR.fresh 7))
     = Build_Session (R := StubR.runtime) (7, 1%nat) [EvImportr "surveillance"]
  /\ snd (simulate_outbreaks StubR.runtime 18262 chain_args (StubR.fresh 7))
     = Build_Session (R := StubR.runtime) (2131988640, 1%nat)
         [sim_call chain_args].
Proof. repeat split. Qed.

(* ===================================================================== *)
(** * Binding a call *)
(* ===================================================================== *)

(** C10: [state_weight] is the one parameter without a default.  A call that
    leaves it out raises [TypeError] with the session untouched, so before
    any external call; a call that gives it binds whatever else is left out,
    and a call that gives nothing else runs with every default. *)
Theorem state_weight_is_required
    (R : RRuntime) (epoch : Z) (c : CallArgs) (k : PyNumber) (s : Session R) :
  call_simulate_outbreaks R epoch (without_state_weight c) s
  = (inl missing_state_weight, s)
  /\ (given_state_weight c = None <-> bind_arguments c = inl missing_state_weight)
  /\ (given_state_weight c = Some k ->
      exists a,
        bind_arguments c = inr a
        /\ arg_state_weight a = k
        /\ call_simulate_outbreaks R epoch c s = simulate_outbreaks R epoch a s)
  /\ bind_arguments (only_state_weight k) = inr (defaults k).
Proof.
  repeat split.
  - unfold bind_arguments. intros ->. reflexivity.
  - unfold bind_arguments.
    destruct (given_state_weight c); [discriminate | reflexivity].
  - intros Hk. unfold call_simulate_outbreaks, bind, lift, bind_arguments.
    rewrite Hk. eexists. repeat split.
Qed.

(* ===================================================================== *)
(** * More on the frame a run returns *)
(* ===================================================================== *)

Lemma series_mul_bounds (a b : list Z) :
  forallb (Z.leb 0) a = true ->
  forallb is_binary b = true ->
  forallb (Z.leb 0) (series_mul a b) = true
  /\ 0 <= total (series_mul a b) <= total a.
Proof.
  revert b.
  induction a as [|x a IH]; intros [|y b]; simpl; intros Ha Hb;
    try (split; [reflexivity | lia]).
  - apply andb_true_iff in Ha. destruct Ha as [Hx Ha].
    apply Z.leb_le in Hx.
    assert (Hpos : forall l, forallb (Z.leb 0) l = true -> 0 <= total l).
    { induction l as [|z l IHl]; simpl; [lia|].
      intros H. apply andb_true_iff in H. destruct H as [Hz Hl].
      apply Z.leb_le in Hz. specialize (IHl Hl). lia. }
    specialize (Hpos a Ha). split; [reflexivity | lia].
  - apply andb_true_iff in Ha. destruct Ha as [Hx Ha].
    apply andb_true_iff in Hb. destruct Hb as [Hy Hb].
    apply Z.leb_le in Hx.
    destruct (IH b Ha Hb) as [Hall Htot].
    unfold is_binary in Hy. apply orb_true_iff in Hy.
    destruct Hy as [Hy|Hy]; apply Z.eqb_eq in Hy; subst y.
    + rewrite Z.mul_0_r. simpl. split; [exact Hall | lia].
    + rewrite Z.mul_1_r. split.
      * apply andb_true_iff. split; [now apply Z.leb_le | exact Hall].
      * lia.
Qed.

Lemma forallb_nth_error (p : Z -> bool) (l : list Z) (t : nat) (x : Z) :
  forallb p l = true -> nth_error l t = Some x -> p x = true.
Proof.
  intros Hall Hx. rewrite forallb_forall in Hall.
  apply Hall. eapply nth_error_In. exact Hx.
Qed.

Lemma series_mul_ones (a b : list Z) :
  List.length a = List.length b ->
  forallb (Z.eqb 1) b = true ->
  series_mul a b = a.
Proof.
  revert b.
  induction a as [|x a IH]; intros [|y b];
    cbn [forallb series_mul List.length]; try discriminate; auto.
  intros [= Hlen] Hb. apply andb_true_iff in Hb. destruct Hb as [Hy Hb].
  apply Z.eqb_eq in Hy. subst y. rewrite Z.mul_1_r. now rewrite IH.
Qed.

Lemma series_mul_zeros (a b : list Z) :
  List.length a = List.length b ->
  forallb (Z.eqb 0) b = true ->
  series_mul a b = repeat 0 (List.length a).
Proof.
  revert b.
  induction a as [|x a IH]; intros [|y b];
    cbn [forallb series_mul List.length repeat]; try discriminate; auto.
  intros [= Hlen] Hb. apply andb_true_iff in Hb. destruct Hb as [Hy Hb].
  apply Z.eqb_eq in Hy. subst y. rewrite Z.mul_0_r. now rewrite IH.
Qed.

(** X1: the [raw_cases] column of a returned frame is the [observed] entry of
    the answer of the engine, and [is_outbreak] its [state] entry, as they
    came: the wrapper changes neither a value nor the order. *)
Theorem columns_are_the_engine_series
    (R : RRuntime) (epoch : Z) (a : Params) (s s' : Session R) (df : DataFrame) :
  simulate_outbreaks R epoch a s = (inr df, s') ->
  exists r_list,
    fst (sim_pointSource R (forwarded a) (world s)) = inr r_list
    /\ lookup_column (df_columns df) "raw_cases" = rx2 r_list "observed"
    /\ lookup_column (df_columns df) "is_outbreak" = rx2 r_list "state".
Proof.
  intros Hrun.
  destruct (simulate_outbreaks_returns R epoch a s s' df Hrun)
    as (r_list & observed & state & Hsim & Ho & Hst & _ & ->).
  exists r_list. rewrite Hsim, Ho, Hst. repeat split.
Qed.

Lemma columns_are_the_engine_series_witness :
  exists r_list,
    fst (sim_pointSource StubR.runtime (forwarded chain_args)
           (world (StubR.fresh 7))) = inr r_list
    /\ lookup_column (df_columns chain_frame) "raw_cases" = rx2 r_list "observed"
    /\ lookup_column (df_columns chain_frame) "is_outbreak" = rx2 r_list "state".
Proof.
  apply (columns_are_the_engine_series StubR.runtime 18262 chain_args
           (StubR.fresh 7)
           (snd (simulate_outbreaks StubR.runtime 18262 chain_args (StubR.fresh 7)))
           chain_frame).
  reflexivity.
Defined.

(** X2: when the counts of a returned frame are not negative and its
    [is_outbreak] values are zeros and ones, [n_outbreak_cases] lies between 0
    and [raw_cases] in every row. *)
Theorem outbreak_cases_within_raw_cases
    (R : RRuntime) (epoch : Z) (a : Params) (s s' : Session R)
    (df : DataFrame) (t : nat) :
  simulate_outbreaks R epoch a s = (inr df, s') ->
  column_all (Z.leb 0) df "raw_cases" = true ->
  column_all is_binary df "is_outbreak" = true ->
  (t < len df)%nat ->
  exists n raw_cases,
    cell df "n_outbreak_cases" t = Some n
    /\ cell df "raw_cases" t = Some raw_cases
    /\ 0 <= n <= raw_cases.
Proof.
  intros Hrun Hraw Hbin Ht.
  destruct (simulate_outbreaks_returns R epoch a s s' df Hrun)
    as (r_list & observed & state & _ & _ & _ & Hlen & ->).
  rewrite framed_len in Ht.
  unfold column_all in Hraw, Hbin. simpl in Hraw, Hbin.
  destruct (nth_error observed t) as [x|] eqn:Ex;
    [|apply nth_error_None in Ex; lia].
  destruct (nth_error state t) as [y|] eqn:Ey;
    [|apply nth_error_None in Ey; lia].
  pose proof (forallb_nth_error _ _ _ _ Hraw Ex) as Hx. apply Z.leb_le in Hx.
  pose proof (forallb_nth_error _ _ _ _ Hbin Ey) as Hy.
  exists (x * y), x. unfold cell. simpl.
  rewrite (series_mul_nth observed state t x y Ex Ey).
  repeat split; try assumption;
    unfold is_binary in Hy; apply orb_true_iff in Hy;
    destruct Hy as [Hy|Hy]; apply Z.eqb_eq in Hy; subst y; lia.
Qed.

Lemma outbreak_cases_within_raw_cases_witness :
  exists n raw_cases,
    cell chain_frame "n_outbreak_cases" 3 = Some n
    /\ cell chain_frame "raw_cases" 3 = Some raw_cases
    /\ 0 <= n <= raw_cases.
Proof.
  apply (outbreak_cases_within_raw_cases StubR.runtime 18262 chain_args
           (StubR.fresh 7)
           (snd (simulate_outbreaks StubR.runtime 18262 chain_args (StubR.fresh 7)))
           chain_frame 3%nat).
  - reflexivity.
  - reflexivity.
  - reflexivity.
  - unfold len, chain_frame. simpl. lia.
Defined.

(** X3: under the same conditions the outbreak cases of the whole series add
    up to no more than the raw cases, and to no less than 0. *)
Theorem outbreak_total_within_raw_total
    (R : RRuntime) (epoch : Z) (a : Params) (s s' : Session R) (df : DataFrame) :
  simulate_outbreaks R epoch a s = (inr df, s') ->
  column_all (Z.leb 0) df "raw_cases" = true ->
  column_all is_binary df "is_outbreak" = true ->
  exists outbreak_total raw_total,
    column_total df "n_outbreak_cases" = Some outbreak_total
    /\ column_total df "raw_cases" = Some raw_total
    /\ 0 <= outbreak_total <= raw_total.
Proof.
  intros Hrun Hraw Hbin.
  destruct (simulate_outbreaks_returns R epoch a s s' df Hrun)
    as (r_list & observed & state & _ & _ & _ & Hlen & ->).
  unfold column_all in Hraw, Hbin. simpl in Hraw, Hbin.
  destruct (series_mul_bounds observed state Hraw Hbin) as [_ Htot].
  exists (total (series_mul observed state)), (total observed).
  repeat split; apply Htot.
Qed.

Lemma outbreak_total_within_raw_total_witness :
  exists outbreak_total raw_total,
    column_total chain_frame "n_outbreak_cases" = Some outbreak_total
    /\ column_total chain_frame "raw_cases" = Some raw_total
    /\ 0 <= outbreak_total <= raw_total.
Proof.
  apply (outbreak_total_within_raw_total StubR.runtime 18262 chain_args
           (StubR.fresh 7)
           (snd (simulate_outbreaks StubR.runtime 18262 chain_args (StubR.fresh 7)))
           chain_frame);
    reflexivity.
Defined.

(** X4: when every week of a returned frame is an outbreak week, the
    [n_outbreak_cases] column is the [raw_cases] column. *)
Theorem all_outbreak_keeps_raw_cases
    (R : RRuntime) (epoch : Z) (a : Params) (s s' : Session R) (df : DataFrame) :
  simulate_outbreaks R epoch a s = (inr df, s') ->
  column_all (Z.eqb 1) df "is_outbreak" = true ->
  lookup_column (df_columns df) "n_outbreak_cases"
  = lookup_column (df_columns df) "raw_cases".
Proof.
  intros Hrun Hones.
  destruct (simulate_outbreaks_returns R epoch a s s' df Hrun)
    as (r_list & observed & state & _ & _ & _ & Hlen & ->).
  unfold column_all in Hones. simpl in Hones. simpl.
  rewrite series_mul_ones; [reflexivity | now symmetry | exact Hones].
Qed.

Lemma all_outbreak_keeps_raw_cases_witness :
  lookup_column (df_columns outbreak_frame) "n_outbreak_cases"
  = lookup_column (df_columns outbreak_frame) "raw_cases".
Proof.
  apply (all_outbreak_keeps_raw_cases StubR.runtime 18262 outbreak_args
           (StubR.fresh 7)
           (snd (simulate_outbreaks StubR.runtime 18262 outbreak_args
                   (StubR.fresh 7)))
           outbreak_frame);
    reflexivity.
Defined.

(** X5: when no week of a returned frame is an outbreak week, the
    [n_outbreak_cases] column is zero in every row. *)
Theorem no_outbreak_no_outbreak_cases
    (R : RRuntime) (epoch : Z) (a : Params) (s s' : Session R) (df : DataFrame) :
  simulate_outbreaks R epoch a s = (inr df, s') ->
  column_all (Z.eqb 0) df "is_outbreak" = true ->
  lookup_column (df_columns df) "n_outbreak_cases" = Some (repeat 0 (len df)).
Proof.
  intros Hrun Hzeros.
  destruct (simulate_outbreaks_returns R epoch a s s' df Hrun)
    as (r_list & observed & state & _ & _ & _ & Hlen & ->).
  unfold column_all in Hzeros. simpl in Hzeros.
  rewrite framed_len. simpl.
  rewrite series_mul_zeros; [reflexivity | now symmetry | exact Hzeros].
Qed.

Lemma no_outbreak_no_outbreak_cases_witness :
  lookup_column (df_columns quiet_frame) "n_outbreak_cases"
  = Some (repeat 0 (len quiet_frame)).
Proof.
  apply (no_outbreak_no_outbreak_cases StubR.runtime 18262 quiet_args
           (StubR.fresh 7)
           (snd (simulate_outbreaks StubR.runtime 18262 quiet_args
                   (StubR.fresh 7)))
           quiet_frame);
    reflexivity.
Defined.

(* ===================================================================== *)
(** * More on what reaches the engine *)
(* ===================================================================== *)

(** X7: a second run starts where the first left the runtime: after two runs
    in a row the runtime is in the state the second call to the engine left
    it in, having been handed the state the first call left, and both calls
    are on record in order.  The second frame comes from the session the
    first run ended in, not from the one it started in. *)
Theorem second_run_continues_the_first
    (R : RRuntime) (epoch : Z) (a b : Params) (s s1 : Session R)
    (first : DataFrame) :
  simulate_outbreaks R epoch a s = (inr first, s1) ->
  snd (two_runs R epoch a b s)
  = Build_Session
      (snd (sim_pointSource R (forwarded b)
              (snd (sim_pointSource R (forwarded a) (world s)))))
      (trace s ++ [sim_call a; sim_call b])
  /\ fst (two_runs R epoch a b s)
     = match fst (simulate_outbreaks R epoch b s1) with
       | inl e => inl e
       | inr second => inr (first, second)
       end.
Proof.
  intros Hrun.
  pose proof (simulate_outbreaks_session R epoch a s) as Hs1.
  rewrite Hrun in Hs1. simpl in Hs1.
  pose proof (simulate_outbreaks_session R epoch b s1) as Hs2.
  unfold two_runs, bind, ret. rewrite Hrun.
  destruct (simulate_outbreaks R epoch b s1) as [[e|second] s2];
    simpl in *; rewrite Hs2, Hs1; simpl; rewrite <- app_assoc; split; reflexivity.
Qed.

Lemma second_run_continues_the_first_witness :
  snd (two_runs StubR.runtime 18262 quiet_args quiet_args (StubR.fresh 7))
  = Build_Session (R := StubR.runtime)
      (snd (sim_pointSource StubR.runtime (forwarded quiet_args)
              (snd (sim_pointSource StubR.runtime (forwarded quiet_args)
                      (world (StubR.fresh 7))))))
      (trace (StubR.fresh 7) ++ [sim_call quiet_args; sim_call quiet_args])
  /\ fst (two_runs StubR.runtime 18262 quiet_args quiet_args (StubR.fresh 7))
     = match
         fst (simulate_outbreaks StubR.runtime 18262 quiet_args
                (snd (simulate_outbreaks StubR.runtime 18262 quiet_args
                        (StubR.fresh 7))))
       with
       | inl e => inl e
       | inr second => inr (quiet_frame, second)
       end.
Proof.
  apply (second_run_continues_the_first StubR.runtime 18262 quiet_args quiet_args
           (StubR.fresh 7)
           (snd (simulate_outbreaks StubR.runtime 18262 quiet_args (StubR.fresh 7)))
           quiet_frame).
  reflexivity.
Defined.

(** X8: a call that gives [state_weight], and whose state chain, if it gives
    one, fits an R integer vector, makes the one call to the engine with, for
    every other parameter, the value given or else the default of the
    signature, [amplitude] under the name [A], [state_weight] under the name
    [K] and the chain value for value; the session afterwards is the runtime
    as that call left it. *)
Theorem call_sends_given_or_default
    (R : RRuntime) (epoch : Z) (c : CallArgs) (k : PyNumber) (s : Session R) :
  given_state_weight c = Some k ->
  match or_default (given_state c) None with
  | None => True
  | Some state => forallb fits_int32 state = true
  end ->
  kw_state (kwargs_of_call c k)
  = match or_default (given_state c) None with
    | None => RNULL
    | Some state => RIntVector state
    end
  /\ snd (call_simulate_outbreaks R epoch c s)
  = Build_Session
      (snd (sim_pointSource R (kwargs_of_call c k) (world s)))
      (trace s ++ [EvCall "surveillance" "sim_pointSource" (kwargs_of_call c k)]).
Proof.
  intros Hk Hfits. split.
  { cbn [kwargs_of_call kw_state].
    destruct (or_default (given_state c) None) as [state|];
      [now apply IntVector_fits | reflexivity]. }
  unfold call_simulate_outbreaks, bind, lift, bind_arguments. rewrite Hk.
  match goal with
  | |- snd (match (_, _) with _ => _ end) = _ => cbn iota
  | _ => idtac
  end.
  rewrite simulate_outbreaks_session. reflexivity.
Qed.

Lemma call_sends_given_or_default_witness :
  kw_state (kwargs_of_call chain_call (PyInt 2)) = RIntVector [0; 1]
  /\ snd (call_simulate_outbreaks StubR.runtime 18262 chain_call (StubR.fresh 7))
  = Build_Session (R := StubR.runtime)
      (snd (sim_pointSource StubR.runtime (kwargs_of_call chain_call (PyInt 2))
              (world (StubR.fresh 7))))
      (trace (StubR.fresh 7)
       ++ [EvCall "surveillance" "sim_pointSource"
             (kwargs_of_call chain_call (PyInt 2))]).
Proof.
  apply (call_sends_given_or_default StubR.runtime 18262 chain_call (PyInt 2)
           (StubR.fresh 7)).
  - reflexivity.
  - reflexivity.
Defined.
